(** * Shallow embedding of clippy's [partial_pub_fields] lint

    Source: [clippy_lints/src/partial_pub_fields.rs].

    The early lint pass [PartialPubFields] inspects every item; for a
    [struct] it takes the visibility of the first field as the baseline and
    reports, through [span_lint_and_help], the first later field whose
    visibility (public / not public) disagrees with it, then returns.

    The parts of [rustc_ast] the pass reads are embedded as they are:
    [VisibilityKind] with its three constructors and [is_pub],
    [Visibility] (kind and span), [FieldDef], [VariantData] with
    [fields()], [ItemKind] and [Item].  The lint context [EarlyContext] is
    modelled by the only part of it the pass touches: the sequence of
    diagnostics emitted so far; [span_lint_and_help] appends one. *)

From Stdlib Require Import List String Bool Arith Lia.
Import ListNotations.
Open Scope string_scope.
Open Scope list_scope.

(** ** Source positions *)

Record Span := mk_span { lo : nat; hi : nat }.

(** ** [rustc_ast::ast::VisibilityKind] *)

Module VisibilityKind.
(** [pub], [pub(crate)] / [pub(in path)] / [pub(super)], and no
    modifier at all. *)
Inductive t :=
| Public
| Restricted (path : list string) (shorthand : bool)
| Inherited.

(** [pub fn is_pub(&self) -> bool { matches!(self, VisibilityKind::Public) }] *)
Definition is_pub (k : t) : bool :=
  match k with
  | Public => true
  | _ => false
  end.
End VisibilityKind.

(** ** [rustc_ast::ast::Visibility] *)

Module Visibility.
Record t := mk { kind : VisibilityKind.t; span : Span }.
End Visibility.

(** ** [rustc_ast::ast::FieldDef] (the parts the lint may see) *)

Module FieldDef.
Record t := mk {
  vis : Visibility.t;
  ident : option string;   (** [None] for positional (tuple) fields *)
  ty : string
}.
End FieldDef.

(** ** [rustc_ast::ast::VariantData] *)

Module VariantData.
Inductive t :=
| Struct (fields : list FieldDef.t) (recovered : bool)
| Tuple (fields : list FieldDef.t) (id : nat)
| Unit (id : nat).

(** [pub fn fields(&self) -> &[FieldDef]] *)
Definition fields (v : t) : list FieldDef.t :=
  match v with
  | Struct fs _ => fs
  | Tuple fs _ => fs
  | Unit _ => []
  end.
End VariantData.

(** ** [rustc_ast::ast::ItemKind] and [Item] *)

Record Generics := mk_generics { params : list string }.

Module ItemKind.
Inductive t :=
| Struct (st : VariantData.t) (g : Generics)
| Union (st : VariantData.t) (g : Generics)
| Enum (variants : list (string * VariantData.t)) (g : Generics)
| Trait (items : list string)
| Fn (name : string)
| Other (what : string).
End ItemKind.

Module Item.
Record t := mk { ident : string; vis : Visibility.t; kind : ItemKind.t; span : Span }.
End Item.

(** ** Lint declaration *)

Inductive LintCategory :=
  Correctness | Suspicious | Style | Complexity | Perf
| Pedantic | Restriction | Nursery | Cargo.

Module Lint.
Record t := mk { name : string; category : LintCategory; desc : string; version : string }.
End Lint.

(** [declare_clippy_lint! { #[clippy::version = "1.66.0"]
     pub PARTIAL_PUB_FIELDS, restriction,
     "partial fields of a struct are public" }] *)
Definition PARTIAL_PUB_FIELDS : Lint.t :=
  Lint.mk "PARTIAL_PUB_FIELDS" Restriction
    "partial fields of a struct are public" "1.66.0".

(** ** Diagnostics and the lint context *)

Module Diagnostic.
Record t := mk {
  lint : Lint.t;
  span : Span;
  msg : string;
  help_span : option Span;
  help : string
}.
End Diagnostic.

Record EarlyContext := mk_cx { emitted : list Diagnostic.t }.

(** [span_lint_and_help(cx, lint, span, msg, help_span, help)]: emit one
    diagnostic. *)
Definition span_lint_and_help (cx : EarlyContext) (lint : Lint.t) (sp : Span)
    (msg : string) (help_span : option Span) (help : string) : EarlyContext :=
  mk_cx (emitted cx ++ [Diagnostic.mk lint sp msg help_span help]).

(** ** The pass *)

Definition field_is_pub (field : FieldDef.t) : bool :=
  VisibilityKind.is_pub (Visibility.kind (FieldDef.vis field)).

Definition field_vis_span (field : FieldDef.t) : Span :=
  Visibility.span (FieldDef.vis field).

(** The [for field in fields { ... }] loop, with its two early returns. *)
Fixpoint check_fields (cx : EarlyContext) (all_pub all_priv : bool) (msg : string)
    (fields : list FieldDef.t) : EarlyContext :=
  match fields with
  | [] => cx
  | field :: rest =>
      if all_priv && field_is_pub field then
        span_lint_and_help cx PARTIAL_PUB_FIELDS (field_vis_span field) msg None
          "consider using private field here"
      else if all_pub && negb (field_is_pub field) then
        span_lint_and_help cx PARTIAL_PUB_FIELDS (field_vis_span field) msg None
          "consider using public field here"
      else check_fields cx all_pub all_priv msg rest
  end.

Definition mixed_msg : string := "mixed usage of pub and non-pub fields".

(** [impl EarlyLintPass for PartialPubFields { fn check_item(..) }] *)
Definition check_item (cx : EarlyContext) (item : Item.t) : EarlyContext :=
  match Item.kind item with
  | ItemKind.Struct st _ =>
      match VariantData.fields st with
      | [] => cx
      | first_field :: fields =>
          let all_pub := field_is_pub first_field in
          let all_priv := negb all_pub in
          let msg := mixed_msg in
          check_fields cx all_pub all_priv msg fields
      end
  | _ => cx
  end.

(** The help text chosen for a baseline. *)
Definition help_for (all_pub : bool) : string :=
  if all_pub then "consider using public field here"
  else "consider using private field here".

(** ** Concrete inputs *)

Definition sp (n : nat) : Span := mk_span n (n + 3).

Definition fld (k : VisibilityKind.t) (n : nat) (name : string) : FieldDef.t :=
  FieldDef.mk (Visibility.mk k (sp n)) (Some name) "u8".

Definition tfld (k : VisibilityKind.t) (n : nat) : FieldDef.t :=
  FieldDef.mk (Visibility.mk k (sp n)) None "u8".

Definition item_of (k : ItemKind.t) : Item.t :=
  Item.mk "Color" (Visibility.mk VisibilityKind.Public (sp 0)) k (sp 0).

Definition struct_item (fs : list FieldDef.t) : Item.t :=
  item_of (ItemKind.Struct (VariantData.Struct fs false) (mk_generics [])).

Definition cx0 : EarlyContext := mk_cx [].

Definition pub_crate : VisibilityKind.t := VisibilityKind.Restricted ["crate"] true.

(** A field with its visibility class toggled ([pub] becomes no modifier,
    anything else becomes [pub]); the visibility span is kept. *)
Definition flip_field (f : FieldDef.t) : FieldDef.t :=
  FieldDef.mk
    (Visibility.mk
       (if field_is_pub f then VisibilityKind.Inherited else VisibilityKind.Public)
       (field_vis_span f))
    (FieldDef.ident f) (FieldDef.ty f).

(** Scenario 3 of the documentation: [pub r, pub g, b]. *)
Example scenario_pub_pub_priv :
  emitted (check_item cx0 (struct_item
    [fld VisibilityKind.Public 10 "r"; fld VisibilityKind.Public 20 "g";
     fld VisibilityKind.Inherited 30 "b"]))
  = [Diagnostic.mk PARTIAL_PUB_FIELDS (sp 30) mixed_msg None
       "consider using public field here"].
Proof. reflexivity. Qed.

(** Scenario 4: [r, pub g, b]. *)
Example scenario_priv_pub_priv :
  emitted (check_item cx0 (struct_item
    [fld VisibilityKind.Inherited 10 "r"; fld VisibilityKind.Public 20 "g";
     fld VisibilityKind.Inherited 30 "b"]))
  = [Diagnostic.mk PARTIAL_PUB_FIELDS (sp 20) mixed_msg None
       "consider using private field here"].
Proof. reflexivity. Qed.

(** ** The loop: general facts *)

Section Loop.
Variable cx : EarlyContext.
Variable msg : string.

(** Every field agrees with the baseline [b]: the loop runs to the end
    and emits nothing. *)
Lemma check_fields_agree (b : bool) (fs : list FieldDef.t) :
  Forall (fun f => field_is_pub f = b) fs ->
  check_fields cx b (negb b) msg fs = cx.
Proof.
  induction 1 as [|f fs Hf _ IH]; simpl; [reflexivity|].
  rewrite Hf; destruct b; simpl; exact IH.
Qed.

(** The first disagreeing field is reported, whatever follows it. *)
Lemma check_fields_mismatch (b : bool) (pre : list FieldDef.t) (f : FieldDef.t)
    (post : list FieldDef.t) :
  Forall (fun g => field_is_pub g = b) pre ->
  field_is_pub f = negb b ->
  check_fields cx b (negb b) msg (pre ++ f :: post) =
  span_lint_and_help cx PARTIAL_PUB_FIELDS (field_vis_span f) msg None (help_for b).
Proof.
  induction 1 as [|g pre Hg _ IH]; intros Hf; simpl.
  - rewrite Hf; destruct b; reflexivity.
  - rewrite Hg; destruct b; simpl; apply IH; exact Hf.
Qed.

(** The loop emits nothing or exactly one diagnostic of this lint. *)
Lemma check_fields_shape (a p : bool) (fs : list FieldDef.t) :
  check_fields cx a p msg fs = cx \/
  exists d, check_fields cx a p msg fs = mk_cx (emitted cx ++ [d]) /\
            Diagnostic.lint d = PARTIAL_PUB_FIELDS /\ Diagnostic.msg d = msg.
Proof.
  induction fs as [|f fs IH]; simpl; [left; reflexivity|].
  destruct (p && field_is_pub f); [right; eexists; repeat split; reflexivity|].
  destruct (a && negb (field_is_pub f)); [right; eexists; repeat split; reflexivity|].
  exact IH.
Qed.
End Loop.

(** A list with some field disagreeing with [b] splits at the first one. *)
Lemma split_first_mismatch (b : bool) (fs : list FieldDef.t) :
  Exists (fun f => field_is_pub f = negb b) fs ->
  exists pre f post,
    fs = pre ++ f :: post /\
    Forall (fun g => field_is_pub g = b) pre /\
    field_is_pub f = negb b.
Proof.
  induction fs as [|g fs IH]; intros Hex; [inversion Hex|].
  destruct (Bool.bool_dec (field_is_pub g) b) as [Heq|Hne].
  - inversion Hex as [? ? Hg|? ? Htl].
    + rewrite Heq in Hg; destruct b; discriminate.
    + destruct (IH Htl) as (pre & f & post & -> & Hpre & Hf).
      exists (g :: pre), f, post; repeat split; auto.
  - exists [], g, fs; repeat split; auto.
    destruct (field_is_pub g), b; simpl; congruence.
Qed.

Lemma check_item_struct (cx : EarlyContext) (item : Item.t) (st : VariantData.t)
    (g : Generics) (first : FieldDef.t) (rest : list FieldDef.t) :
  Item.kind item = ItemKind.Struct st g ->
  VariantData.fields st = first :: rest ->
  check_item cx item =
  check_fields cx (field_is_pub first) (negb (field_is_pub first)) mixed_msg rest.
Proof. intros Hk Hf; unfold check_item; rewrite Hk, Hf; reflexivity. Qed.

(** ** Claims *)

(** C1: when the first field of a struct is public and some later field is
    not, [check_item] emits exactly one diagnostic, at the visibility span of
    the first non-public field after the first one, with help
    "consider using public field here". *)
Theorem pub_baseline_reports_first_private (cx : EarlyContext) (item : Item.t)
    (st : VariantData.t) (g : Generics) (first : FieldDef.t) (rest : list FieldDef.t) :
  Item.kind item = ItemKind.Struct st g ->
  VariantData.fields st = first :: rest ->
  field_is_pub first = true ->
  Exists (fun f => field_is_pub f = false) rest ->
  exists pre f post,
    rest = pre ++ f :: post /\
    Forall (fun h => field_is_pub h = true) pre /\
    field_is_pub f = false /\
    emitted (check_item cx item) =
    emitted cx ++ [Diagnostic.mk PARTIAL_PUB_FIELDS (field_vis_span f) mixed_msg None
                     "consider using public field here"].
Proof.
  intros Hk Hf Hfirst Hex.
  destruct (split_first_mismatch true rest Hex) as (pre & f & post & -> & Hpre & Hm).
  exists pre, f, post; repeat split; auto.
  rewrite (check_item_struct cx item st g first _ Hk Hf), Hfirst.
  rewrite (check_fields_mismatch cx mixed_msg true pre f post Hpre Hm); reflexivity.
Qed.

Lemma pub_baseline_reports_first_private_witness :
  emitted (check_item cx0 (struct_item
    [fld VisibilityKind.Public 10 "r"; fld VisibilityKind.Inherited 20 "g";
     fld pub_crate 30 "b"]))
  = [Diagnostic.mk PARTIAL_PUB_FIELDS (sp 20) mixed_msg None
       "consider using public field here"].
Proof.
  destruct (pub_baseline_reports_first_private cx0
              (struct_item [fld VisibilityKind.Public 10 "r";
                            fld VisibilityKind.Inherited 20 "g"; fld pub_crate 30 "b"])
              (VariantData.Struct [fld VisibilityKind.Public 10 "r";
                                   fld VisibilityKind.Inherited 20 "g"; fld pub_crate 30 "b"] false)
              (mk_generics []) (fld VisibilityKind.Public 10 "r")
              [fld VisibilityKind.Inherited 20 "g"; fld pub_crate 30 "b"]
              eq_refl eq_refl eq_refl ltac:(constructor 1; reflexivity))
    as (pre & f & post & Hsplit & Hpre & Hf & ->).
  destruct pre as [|h pre].
  - simpl in Hsplit; injection Hsplit as <- _; reflexivity.
  - inversion Hpre as [|? ? Hh]; simpl in Hsplit; injection Hsplit as <- _;
      discriminate Hh.
Defined.

(** C2: when the first field of a struct is not public and some later field
    is public, [check_item] emits exactly one diagnostic, at the visibility
    span of the first public field after the first one, with message
    "mixed usage of pub and non-pub fields" and help
    "consider using private field here". *)
Theorem priv_baseline_reports_first_public (cx : EarlyContext) (item : Item.t)
    (st : VariantData.t) (g : Generics) (first : FieldDef.t) (rest : list FieldDef.t) :
  Item.kind item = ItemKind.Struct st g ->
  VariantData.fields st = first :: rest ->
  field_is_pub first = false ->
  Exists (fun f => field_is_pub f = true) rest ->
  exists pre f post,
    rest = pre ++ f :: post /\
    Forall (fun h => field_is_pub h = false) pre /\
    field_is_pub f = true /\
    emitted (check_item cx item) =
    emitted cx ++ [Diagnostic.mk PARTIAL_PUB_FIELDS (field_vis_span f)
                     "mixed usage of pub and non-pub fields" None
                     "consider using private field here"].
Proof.
  intros Hk Hf Hfirst Hex.
  destruct (split_first_mismatch false rest Hex) as (pre & f & post & -> & Hpre & Hm).
  exists pre, f, post; repeat split; auto.
  rewrite (check_item_struct cx item st g first _ Hk Hf), Hfirst.
  rewrite (check_fields_mismatch cx mixed_msg false pre f post Hpre Hm); reflexivity.
Qed.

Lemma priv_baseline_reports_first_public_witness :
  exists pre f post,
    [fld VisibilityKind.Inherited 20 "g"; fld VisibilityKind.Public 30 "b"] = pre ++ f :: post /\
    field_is_pub f = true /\
    emitted (check_item cx0 (struct_item
      [fld VisibilityKind.Inherited 10 "r"; fld VisibilityKind.Inherited 20 "g";
       fld VisibilityKind.Public 30 "b"]))
    = [Diagnostic.mk PARTIAL_PUB_FIELDS (field_vis_span f)
         "mixed usage of pub and non-pub fields" None "consider using private field here"].
Proof.
  destruct (priv_baseline_reports_first_public cx0
              (struct_item [fld VisibilityKind.Inherited 10 "r";
                            fld VisibilityKind.Inherited 20 "g"; fld VisibilityKind.Public 30 "b"])
              (VariantData.Struct [fld VisibilityKind.Inherited 10 "r";
                                   fld VisibilityKind.Inherited 20 "g";
                                   fld VisibilityKind.Public 30 "b"] false)
              (mk_generics []) (fld VisibilityKind.Inherited 10 "r")
              [fld VisibilityKind.Inherited 20 "g"; fld VisibilityKind.Public 30 "b"]
              eq_refl eq_refl eq_refl
              ltac:(constructor 2; constructor 1; reflexivity))
    as (pre & f & post & Hsplit & _ & Hf & Hem).
  exists pre, f, post; split; [exact Hsplit|split; [exact Hf|exact Hem]].
Defined.

(** Shared: [check_item] leaves the context alone or appends one diagnostic
    of this lint with the mixed-usage message. *)
Lemma check_item_shape (cx : EarlyContext) (item : Item.t) :
  check_item cx item = cx \/
  exists d, check_item cx item = mk_cx (emitted cx ++ [d]) /\
            Diagnostic.lint d = PARTIAL_PUB_FIELDS /\ Diagnostic.msg d = mixed_msg.
Proof.
  unfold check_item.
  destruct (Item.kind item) as [st g| | | | |]; try (left; reflexivity).
  destruct (VariantData.fields st) as [|first rest]; [left; reflexivity|].
  apply check_fields_shape.
Qed.

(** C3: when all fields of a struct have the same visibility class (all
    public or all not public), and in particular when it has exactly one
    field, [check_item] emits no diagnostic. *)
Theorem uniform_visibility_no_diagnostic (cx : EarlyContext) (item : Item.t)
    (st : VariantData.t) (g : Generics) :
  Item.kind item = ItemKind.Struct st g ->
  ((forall f1 f2, In f1 (VariantData.fields st) -> In f2 (VariantData.fields st) ->
      field_is_pub f1 = field_is_pub f2)
   \/ List.length (VariantData.fields st) = 1) ->
  check_item cx item = cx.
Proof.
  intros Hk Hu.
  destruct (VariantData.fields st) as [|first rest] eqn:Hf.
  - unfold check_item; rewrite Hk, Hf; reflexivity.
  - rewrite (check_item_struct cx item st g first rest Hk Hf).
    apply check_fields_agree.
    destruct Hu as [Hu|Hlen].
    + apply Forall_forall; intros f Hin; apply Hu; simpl; auto.
    + destruct rest; [constructor|discriminate].
Qed.

Lemma uniform_visibility_no_diagnostic_witness :
  check_item cx0 (struct_item
    [fld VisibilityKind.Inherited 10 "r"; fld pub_crate 20 "g";
     fld VisibilityKind.Inherited 30 "b"]) = cx0 /\
  check_item cx0 (struct_item [fld VisibilityKind.Public 10 "r"]) = cx0.
Proof.
  split.
  - apply (uniform_visibility_no_diagnostic cx0 _
             (VariantData.Struct [fld VisibilityKind.Inherited 10 "r"; fld pub_crate 20 "g";
                                  fld VisibilityKind.Inherited 30 "b"] false)
             (mk_generics [])); [reflexivity|left].
    intros f1 f2 H1 H2; simpl in H1, H2.
    destruct H1 as [<-|[<-|[<-|[]]]]; destruct H2 as [<-|[<-|[<-|[]]]]; reflexivity.
  - apply (uniform_visibility_no_diagnostic cx0 _
             (VariantData.Struct [fld VisibilityKind.Public 10 "r"] false)
             (mk_generics [])); [reflexivity|right; reflexivity].
Defined.

(** C4: one call of [check_item] emits at most one diagnostic, and once the
    first field disagreeing with the first field's visibility is reached the
    fields after it are not examined: the outcome does not depend on them. *)
Theorem at_most_one_diagnostic_first_mismatch_stops :
  (forall cx item, List.length (emitted (check_item cx item)) <= S (List.length (emitted cx))) /\
  (forall cx item item' st st' g g' first pre f post post',
     Item.kind item = ItemKind.Struct st g ->
     Item.kind item' = ItemKind.Struct st' g' ->
     VariantData.fields st = first :: pre ++ f :: post ->
     VariantData.fields st' = first :: pre ++ f :: post' ->
     Forall (fun h => field_is_pub h = field_is_pub first) pre ->
     field_is_pub f <> field_is_pub first ->
     check_item cx item = check_item cx item').
Proof.
  split.
  - intros cx item.
    destruct (check_item_shape cx item) as [->|(d & -> & _ & _)]; simpl;
      [lia|rewrite length_app; simpl; lia].
  - intros cx item item' st st' g g' first pre f post post' Hk Hk' Hf Hf' Hpre Hne.
    assert (Hm : field_is_pub f = negb (field_is_pub first))
      by (destruct (field_is_pub f), (field_is_pub first); simpl; congruence).
    rewrite (check_item_struct cx item st g first _ Hk Hf),
            (check_item_struct cx item' st' g' first _ Hk' Hf').
    rewrite (check_fields_mismatch cx mixed_msg _ pre f post Hpre Hm),
            (check_fields_mismatch cx mixed_msg _ pre f post' Hpre Hm).
    reflexivity.
Qed.

Lemma at_most_one_diagnostic_first_mismatch_stops_witness :
  check_item cx0 (struct_item
    [fld VisibilityKind.Public 10 "r"; fld VisibilityKind.Inherited 20 "g";
     fld VisibilityKind.Inherited 30 "b"])
  = check_item cx0 (struct_item
    [fld VisibilityKind.Public 10 "r"; fld VisibilityKind.Inherited 20 "g"]) /\
  List.length (emitted (check_item cx0 (struct_item
    [fld VisibilityKind.Public 10 "r"; fld VisibilityKind.Inherited 20 "g";
     fld VisibilityKind.Inherited 30 "b"]))) <= 1.
Proof.
  split.
  - apply (proj2 at_most_one_diagnostic_first_mismatch_stops cx0 _ _
             (VariantData.Struct [fld VisibilityKind.Public 10 "r";
                                  fld VisibilityKind.Inherited 20 "g";
                                  fld VisibilityKind.Inherited 30 "b"] false)
             (VariantData.Struct [fld VisibilityKind.Public 10 "r";
                                  fld VisibilityKind.Inherited 20 "g"] false)
             (mk_generics []) (mk_generics [])
             (fld VisibilityKind.Public 10 "r") [] (fld VisibilityKind.Inherited 20 "g")
             [fld VisibilityKind.Inherited 30 "b"] []);
      try reflexivity; [constructor|discriminate].
  - apply (proj1 at_most_one_diagnostic_first_mismatch_stops cx0).
Defined.

(** C5: a struct with no fields gets no diagnostic. *)
Theorem empty_struct_no_diagnostic (cx : EarlyContext) (item : Item.t)
    (st : VariantData.t) (g : Generics) :
  Item.kind item = ItemKind.Struct st g ->
  VariantData.fields st = [] ->
  check_item cx item = cx.
Proof. intros Hk Hf; unfold check_item; rewrite Hk, Hf; reflexivity. Qed.

Lemma empty_struct_no_diagnostic_witness :
  check_item cx0 (struct_item []) = cx0 /\
  check_item cx0 (item_of (ItemKind.Struct (VariantData.Unit 7) (mk_generics []))) = cx0.
Proof.
  split.
  - apply (empty_struct_no_diagnostic cx0 _ (VariantData.Struct [] false) (mk_generics []));
      reflexivity.
  - apply (empty_struct_no_diagnostic cx0 _ (VariantData.Unit 7) (mk_generics []));
      reflexivity.
Defined.

(** C6: visibility is classified as public / not public: [pub(crate)],
    [pub(in path)], [pub(super)] and the default all count as not public, so
    a struct whose first field is [pub] and whose second is restricted gets
    a mismatch diagnostic at the second field. *)
Theorem restricted_visibility_is_not_pub :
  (forall path sh, VisibilityKind.is_pub (VisibilityKind.Restricted path sh) = false) /\
  VisibilityKind.is_pub VisibilityKind.Inherited = false /\
  (forall cx item st g f1 f2 rest path sh,
     Item.kind item = ItemKind.Struct st g ->
     VariantData.fields st = f1 :: f2 :: rest ->
     Visibility.kind (FieldDef.vis f1) = VisibilityKind.Public ->
     Visibility.kind (FieldDef.vis f2) = VisibilityKind.Restricted path sh ->
     emitted (check_item cx item) =
     emitted cx ++ [Diagnostic.mk PARTIAL_PUB_FIELDS (field_vis_span f2) mixed_msg None
                      "consider using public field here"]).
Proof.
  split; [reflexivity|split; [reflexivity|]].
  intros cx item st g f1 f2 rest path sh Hk Hf H1 H2.
  assert (Hp1 : field_is_pub f1 = true) by (unfold field_is_pub; rewrite H1; reflexivity).
  assert (Hp2 : field_is_pub f2 = negb true) by (unfold field_is_pub; rewrite H2; reflexivity).
  rewrite (check_item_struct cx item st g f1 (f2 :: rest) Hk Hf), Hp1.
  exact (f_equal emitted
           (check_fields_mismatch cx mixed_msg true [] f2 rest (Forall_nil _) Hp2)).
Qed.

Lemma restricted_visibility_is_not_pub_witness :
  emitted (check_item cx0 (struct_item
    [fld VisibilityKind.Public 10 "r"; fld pub_crate 20 "g"]))
  = [Diagnostic.mk PARTIAL_PUB_FIELDS (sp 20) mixed_msg None
       "consider using public field here"].
Proof.
  apply (proj2 (proj2 restricted_visibility_is_not_pub) cx0 _
           (VariantData.Struct [fld VisibilityKind.Public 10 "r"; fld pub_crate 20 "g"] false)
           (mk_generics []) (fld VisibilityKind.Public 10 "r") (fld pub_crate 20 "g") []
           ["crate"] true); reflexivity.
Defined.

(** C8: [check_item] is a total function of the context and the item whose
    only effect is to leave the context as it was or to append one
    diagnostic of this lint with the mixed-usage message. *)
Theorem check_item_total_single_optional_diagnostic (cx : EarlyContext) (item : Item.t) :
  check_item cx item = cx \/
  exists d, check_item cx item = mk_cx (emitted cx ++ [d]) /\
            Diagnostic.lint d = PARTIAL_PUB_FIELDS /\ Diagnostic.msg d = mixed_msg.
Proof. apply check_item_shape. Qed.

(** C9: items other than structs (unions, enums, traits, functions, ...)
    are filtered out by [check_item] itself and get no diagnostic. *)
Theorem non_struct_item_no_diagnostic (cx : EarlyContext) (item : Item.t) :
  (forall st g, Item.kind item <> ItemKind.Struct st g) ->
  check_item cx item = cx.
Proof.
  intros H; unfold check_item.
  destruct (Item.kind item) as [st g| | | | |]; try reflexivity.
  exfalso; exact (H st g eq_refl).
Qed.

Lemma non_struct_item_no_diagnostic_witness :
  check_item cx0 (item_of (ItemKind.Union
    (VariantData.Struct [fld VisibilityKind.Public 10 "r";
                         fld VisibilityKind.Inherited 20 "g"] false)
    (mk_generics []))) = cx0 /\
  check_item cx0 (item_of (ItemKind.Enum
    [("A", VariantData.Struct [fld VisibilityKind.Public 10 "r";
                               fld VisibilityKind.Inherited 20 "g"] false)]
    (mk_generics []))) = cx0.
Proof.
  split; apply non_struct_item_no_diagnostic; intros st g H; discriminate H.
Defined.

(** C10: a tuple struct is checked exactly like a struct with named fields
    over the same field list; in particular a mixed tuple struct gets the
    mismatch diagnostic. *)
Theorem tuple_struct_checked_like_named :
  (forall cx ident vis span fs id recovered g,
     check_item cx (Item.mk ident vis (ItemKind.Struct (VariantData.Tuple fs id) g) span) =
     check_item cx (Item.mk ident vis (ItemKind.Struct (VariantData.Struct fs recovered) g) span)) /\
  emitted (check_item cx0 (item_of (ItemKind.Struct
    (VariantData.Tuple [tfld VisibilityKind.Public 10; tfld VisibilityKind.Inherited 20] 0)
    (mk_generics []))))
  = [Diagnostic.mk PARTIAL_PUB_FIELDS (sp 20) mixed_msg None
       "consider using public field here"].
Proof. split; [intros; reflexivity|reflexivity]. Qed.

(** ** Further properties of [check_item] *)

Section Loop2.
Variable cx : EarlyContext.
Variable msg : string.

(** The loop either emits nothing or reports one field of the list that
    disagrees with the baseline, with the baseline's help text. *)
Lemma check_fields_reports_member (b : bool) (fs : list FieldDef.t) :
  check_fields cx b (negb b) msg fs = cx \/
  exists f, In f fs /\ field_is_pub f = negb b /\
    check_fields cx b (negb b) msg fs =
    span_lint_and_help cx PARTIAL_PUB_FIELDS (field_vis_span f) msg None (help_for b).
Proof.
  induction fs as [|f fs IH]; simpl; [left; reflexivity|].
  destruct (Bool.bool_dec (field_is_pub f) b) as [Heq|Hne].
  - rewrite Heq; destruct b; simpl;
      (destruct IH as [IH|(g & Hin & Hg & IH)]; [left; exact IH|right; exists g; auto]).
  - right; exists f; split; [left; reflexivity|].
    destruct (field_is_pub f), b; simpl; try congruence; split; reflexivity.
Qed.

(** Only the visibilities of the fields are read. *)
Lemma check_fields_vis_only (a p : bool) (fs1 fs2 : list FieldDef.t) :
  map FieldDef.vis fs1 = map FieldDef.vis fs2 ->
  check_fields cx a p msg fs1 = check_fields cx a p msg fs2.
Proof.
  revert fs2; induction fs1 as [|f fs1 IH]; intros [|f2 fs2] H; try discriminate H;
    [reflexivity|].
  simpl in H; injection H as Hv Hrest.
  simpl; unfold field_is_pub, field_vis_span; rewrite Hv.
  fold (field_is_pub f2).
  destruct (p && field_is_pub f2), (a && negb (field_is_pub f2)); auto.
Qed.

(** A field agreeing with the baseline can be dropped. *)
Lemma check_fields_drop_agreeing (b : bool) (pre post : list FieldDef.t) (h : FieldDef.t) :
  field_is_pub h = b ->
  check_fields cx b (negb b) msg (pre ++ h :: post) =
  check_fields cx b (negb b) msg (pre ++ post).
Proof.
  intros Hh; induction pre as [|f pre IH]; simpl.
  - rewrite Hh; destruct b; reflexivity.
  - rewrite IH; reflexivity.
Qed.

Lemma flip_field_is_pub (f : FieldDef.t) : field_is_pub (flip_field f) = negb (field_is_pub f).
Proof. unfold flip_field, field_is_pub at 1; simpl; destruct (field_is_pub f); reflexivity. Qed.

(** Flipping every field flips the help text and keeps the anchor. *)
Lemma check_fields_flip (b : bool) (fs : list FieldDef.t) :
  (check_fields cx b (negb b) msg fs = cx /\
   check_fields cx (negb b) (negb (negb b)) msg (map flip_field fs) = cx) \/
  exists s,
    check_fields cx b (negb b) msg fs =
      span_lint_and_help cx PARTIAL_PUB_FIELDS s msg None (help_for b) /\
    check_fields cx (negb b) (negb (negb b)) msg (map flip_field fs) =
      span_lint_and_help cx PARTIAL_PUB_FIELDS s msg None (help_for (negb b)).
Proof.
  induction fs as [|f fs IH]; simpl; [left; split; reflexivity|].
  rewrite flip_field_is_pub.
  assert (Hs : field_vis_span (flip_field f) = field_vis_span f) by reflexivity.
  rewrite Hs.
  destruct (field_is_pub f), b; simpl; auto;
    right; exists (field_vis_span f); split; reflexivity.
Qed.
End Loop2.

Lemma span_lint_and_help_changes (cx : EarlyContext) l s m hs h :
  span_lint_and_help cx l s m hs h <> cx.
Proof.
  intros E; apply (f_equal (fun c => List.length (emitted c))) in E.
  unfold span_lint_and_help in E; simpl in E; rewrite length_app in E; simpl in E; lia.
Qed.

(** X1: every diagnostic in the context after [check_item] was already
    there, or is this lint's mixed-usage diagnostic anchored at the
    visibility span of a field after the first whose class differs from the
    first field's, with the help text of the first field's class. *)
Theorem check_item_anchor_is_later_disagreeing_field (cx : EarlyContext) (item : Item.t)
    (d : Diagnostic.t) :
  In d (emitted (check_item cx item)) ->
  In d (emitted cx) \/
  exists st g first rest f,
    Item.kind item = ItemKind.Struct st g /\
    VariantData.fields st = first :: rest /\
    In f rest /\ field_is_pub f = negb (field_is_pub first) /\
    d = Diagnostic.mk PARTIAL_PUB_FIELDS (field_vis_span f) mixed_msg None
          (help_for (field_is_pub first)).
Proof.
  intros Hin.
  destruct (Item.kind item) as [st g| | | | |] eqn:Hk;
    try (left; unfold check_item in Hin; rewrite Hk in Hin; exact Hin).
  destruct (VariantData.fields st) as [|first rest] eqn:Hf.
  - left; unfold check_item in Hin; rewrite Hk, Hf in Hin; exact Hin.
  - rewrite (check_item_struct cx item st g first rest Hk Hf) in Hin.
    destruct (check_fields_reports_member cx mixed_msg (field_is_pub first) rest)
      as [E|(f & Hfin & Hfp & E)]; rewrite E in Hin; [left; exact Hin|].
    unfold span_lint_and_help in Hin; simpl in Hin.
    apply in_app_or in Hin; destruct Hin as [Hin|[<-|[]]]; [left; exact Hin|].
    right; exists st, g, first, rest, f; repeat split; auto.
Qed.

Lemma check_item_anchor_is_later_disagreeing_field_witness :
  exists st g first rest f,
    Item.kind (struct_item [fld VisibilityKind.Inherited 10 "r";
                            fld VisibilityKind.Inherited 20 "g";
                            fld VisibilityKind.Public 30 "b"]) = ItemKind.Struct st g /\
    VariantData.fields st = first :: rest /\
    In f rest /\ field_is_pub f = negb (field_is_pub first) /\
    Diagnostic.mk PARTIAL_PUB_FIELDS (sp 30) mixed_msg None
      "consider using private field here" =
    Diagnostic.mk PARTIAL_PUB_FIELDS (field_vis_span f) mixed_msg None
      (help_for (field_is_pub first)).
Proof.
  destruct (check_item_anchor_is_later_disagreeing_field cx0
              (struct_item [fld VisibilityKind.Inherited 10 "r";
                            fld VisibilityKind.Inherited 20 "g";
                            fld VisibilityKind.Public 30 "b"])
              (Diagnostic.mk PARTIAL_PUB_FIELDS (sp 30) mixed_msg None
                 "consider using private field here")
              ltac:(simpl; left; reflexivity)) as [[]|H].
  exact H.
Defined.

(** X2: [check_item] emits a diagnostic exactly when the item is a struct
    with at least one field after the first whose visibility class differs
    from the first field's. *)
Theorem check_item_emits_iff_mixed (cx : EarlyContext) (item : Item.t) :
  check_item cx item <> cx <->
  exists st g first rest,
    Item.kind item = ItemKind.Struct st g /\
    VariantData.fields st = first :: rest /\
    Exists (fun f => field_is_pub f <> field_is_pub first) rest.
Proof.
  split.
  - intros Hne.
    destruct (Item.kind item) as [st g| | | | |] eqn:Hk;
      try (exfalso; apply Hne; unfold check_item; rewrite Hk; reflexivity).
    destruct (VariantData.fields st) as [|first rest] eqn:Hf.
    + exfalso; apply Hne; unfold check_item; rewrite Hk, Hf; reflexivity.
    + exists st, g, first, rest; repeat split; auto.
      destruct (Forall_Exists_dec (fun f => field_is_pub f = field_is_pub first)
                  (fun f => Bool.bool_dec (field_is_pub f) (field_is_pub first)) rest)
        as [Hall|Hex]; [|exact Hex].
      exfalso; apply Hne.
      rewrite (check_item_struct cx item st g first rest Hk Hf).
      apply check_fields_agree; exact Hall.
  - intros (st & g & first & rest & Hk & Hf & Hex).
    assert (Hex' : Exists (fun f => field_is_pub f = negb (field_is_pub first)) rest).
    { apply Exists_exists in Hex; apply Exists_exists.
      destruct Hex as (f & Hin & Hf'); exists f; split; [exact Hin|].
      destruct (field_is_pub f), (field_is_pub first);
        simpl; congruence. }
    destruct (split_first_mismatch _ rest Hex') as (pre & f & post & -> & Hpre & Hm).
    rewrite (check_item_struct cx item st g first _ Hk Hf),
            (check_fields_mismatch cx mixed_msg _ pre f post Hpre Hm).
    apply span_lint_and_help_changes.
Qed.

(** X3: the outcome depends on the fields only through their visibilities:
    two structs whose field lists carry the same visibilities (kind and
    span) in the same order get the same result, whatever the field names,
    field types, item name, item visibility or struct shape. *)
Theorem check_item_reads_only_field_visibilities (cx : EarlyContext) (item item' : Item.t)
    (st st' : VariantData.t) (g g' : Generics) :
  Item.kind item = ItemKind.Struct st g ->
  Item.kind item' = ItemKind.Struct st' g' ->
  map FieldDef.vis (VariantData.fields st) = map FieldDef.vis (VariantData.fields st') ->
  check_item cx item = check_item cx item'.
Proof.
  intros Hk Hk' Hv; unfold check_item; rewrite Hk, Hk'.
  destruct (VariantData.fields st) as [|f fs], (VariantData.fields st') as [|f' fs'];
    try discriminate Hv; [reflexivity|].
  simpl in Hv; injection Hv as H1 Hrest.
  unfold field_is_pub at 1 2; rewrite H1; fold (field_is_pub f').
  apply check_fields_vis_only; exact Hrest.
Qed.

Lemma check_item_reads_only_field_visibilities_witness :
  check_item cx0 (struct_item
    [fld VisibilityKind.Public 10 "r"; fld VisibilityKind.Inherited 20 "g"]) =
  check_item cx0 (Item.mk "Pair" (Visibility.mk VisibilityKind.Inherited (sp 1))
    (ItemKind.Struct
       (VariantData.Tuple [tfld VisibilityKind.Public 10; tfld VisibilityKind.Inherited 20] 4)
       (mk_generics ["T"])) (sp 1)).
Proof.
  apply (check_item_reads_only_field_visibilities cx0 _ _
           (VariantData.Struct [fld VisibilityKind.Public 10 "r";
                                fld VisibilityKind.Inherited 20 "g"] false)
           (VariantData.Tuple [tfld VisibilityKind.Public 10;
                               tfld VisibilityKind.Inherited 20] 4)
           (mk_generics []) (mk_generics ["T"])); reflexivity.
Defined.

Lemma check_item_emits_iff_mixed_witness :
  check_item cx0 (struct_item
    [fld VisibilityKind.Public 10 "r"; fld VisibilityKind.Public 20 "g";
     fld pub_crate 30 "b"]) <> cx0.
Proof.
  apply (proj2 (check_item_emits_iff_mixed cx0 _)).
  exists (VariantData.Struct [fld VisibilityKind.Public 10 "r";
                              fld VisibilityKind.Public 20 "g"; fld pub_crate 30 "b"] false),
         (mk_generics []), (fld VisibilityKind.Public 10 "r"),
         [fld VisibilityKind.Public 20 "g"; fld pub_crate 30 "b"].
  split; [reflexivity|split; [reflexivity|]].
  constructor 2; constructor 1; simpl; discriminate.
Defined.

(** X4: toggling the visibility class of every field of a struct (spans
    kept) toggles the help text and keeps everything else: either neither
    struct gets a diagnostic, or both get one at the same span, the original
    with the help of the first field's class and the toggled one with the
    other help text. *)
Theorem check_item_flip_symmetry (cx : EarlyContext) (item item' : Item.t)
    (st st' : VariantData.t) (g g' : Generics) (first : FieldDef.t) (rest : list FieldDef.t) :
  Item.kind item = ItemKind.Struct st g ->
  Item.kind item' = ItemKind.Struct st' g' ->
  VariantData.fields st = first :: rest ->
  VariantData.fields st' = map flip_field (first :: rest) ->
  (check_item cx item = cx /\ check_item cx item' = cx) \/
  exists s,
    emitted (check_item cx item) =
      emitted cx ++ [Diagnostic.mk PARTIAL_PUB_FIELDS s mixed_msg None
                       (help_for (field_is_pub first))] /\
    emitted (check_item cx item') =
      emitted cx ++ [Diagnostic.mk PARTIAL_PUB_FIELDS s mixed_msg None
                       (help_for (negb (field_is_pub first)))].
Proof.
  intros Hk Hk' Hf Hf'; simpl in Hf'.
  rewrite (check_item_struct cx item st g first rest Hk Hf),
          (check_item_struct cx item' st' g' _ _ Hk' Hf'), flip_field_is_pub.
  destruct (check_fields_flip cx mixed_msg (field_is_pub first) rest)
    as [[E1 E2]|(s & E1 & E2)]; rewrite E1, E2; [left; split; reflexivity|].
  right; exists s; split; reflexivity.
Qed.

Lemma check_item_flip_symmetry_witness :
  emitted (check_item cx0 (struct_item
    (map flip_field [fld VisibilityKind.Public 10 "r"; fld VisibilityKind.Public 20 "g";
                     fld VisibilityKind.Inherited 30 "b"]))) =
  [Diagnostic.mk PARTIAL_PUB_FIELDS (sp 30) mixed_msg None
     "consider using private field here"].
Proof.
  destruct (check_item_flip_symmetry cx0
              (struct_item [fld VisibilityKind.Public 10 "r"; fld VisibilityKind.Public 20 "g";
                            fld VisibilityKind.Inherited 30 "b"])
              (struct_item (map flip_field
                 [fld VisibilityKind.Public 10 "r"; fld VisibilityKind.Public 20 "g";
                  fld VisibilityKind.Inherited 30 "b"]))
              (VariantData.Struct [fld VisibilityKind.Public 10 "r";
                                   fld VisibilityKind.Public 20 "g";
                                   fld VisibilityKind.Inherited 30 "b"] false)
              (VariantData.Struct (map flip_field
                 [fld VisibilityKind.Public 10 "r"; fld VisibilityKind.Public 20 "g";
                  fld VisibilityKind.Inherited 30 "b"]) false)
              (mk_generics []) (mk_generics []) (fld VisibilityKind.Public 10 "r")
              [fld VisibilityKind.Public 20 "g"; fld VisibilityKind.Inherited 30 "b"]
              eq_refl eq_refl eq_refl eq_refl) as [[E _]|(s & E1 & E2)].
  - discriminate E.
  - rewrite E2; simpl in E1; injection E1 as <-; reflexivity.
Defined.

(** X5: adding, anywhere after the first field, a field whose visibility
    class agrees with the first field's does not change the result; in
    particular, once the reported field is made to agree, a new check
    reports the next disagreeing field, if any. *)
Theorem check_item_insert_agreeing_field (cx : EarlyContext) (item item' : Item.t)
    (st st' : VariantData.t) (g g' : Generics) (first h : FieldDef.t)
    (pre post : list FieldDef.t) :
  Item.kind item = ItemKind.Struct st g ->
  Item.kind item' = ItemKind.Struct st' g' ->
  VariantData.fields st = first :: pre ++ post ->
  VariantData.fields st' = first :: pre ++ h :: post ->
  field_is_pub h = field_is_pub first ->
  check_item cx item' = check_item cx item.
Proof.
  intros Hk Hk' Hf Hf' Hh.
  rewrite (check_item_struct cx item st g first _ Hk Hf),
          (check_item_struct cx item' st' g' first _ Hk' Hf').
  apply check_fields_drop_agreeing; exact Hh.
Qed.

Lemma check_item_insert_agreeing_field_witness :
  check_item cx0 (struct_item
    [fld VisibilityKind.Inherited 10 "r"; fld VisibilityKind.Inherited 20 "g";
     fld pub_crate 25 "x"; fld VisibilityKind.Public 30 "b"]) =
  check_item cx0 (struct_item
    [fld VisibilityKind.Inherited 10 "r"; fld VisibilityKind.Inherited 20 "g";
     fld VisibilityKind.Public 30 "b"]).
Proof.
  apply (check_item_insert_agreeing_field cx0 _ _
           (VariantData.Struct [fld VisibilityKind.Inherited 10 "r";
                                fld VisibilityKind.Inherited 20 "g";
                                fld VisibilityKind.Public 30 "b"] false)
           (VariantData.Struct [fld VisibilityKind.Inherited 10 "r";
                                fld VisibilityKind.Inherited 20 "g";
                                fld pub_crate 25 "x"; fld VisibilityKind.Public 30 "b"] false)
           (mk_generics []) (mk_generics []) (fld VisibilityKind.Inherited 10 "r")
           (fld pub_crate 25 "x") [fld VisibilityKind.Inherited 20 "g"]
           [fld VisibilityKind.Public 30 "b"]); reflexivity.
Defined.
